(** * ts-result-type: the [Result] objects of [src/index.ts]

    [Ok(value)] and [Err(error)] each return a fresh JavaScript object
    literal: nine methods closed over the constructor's argument, and the
    two boolean properties [isOk] and [isErr].  Several methods return
    [this], and the test-suite compares results with [toBe] (object
    identity), so objects live in a store and are named by their address.

    Callbacks are supplied by the caller and may do anything the host lets
    them do; they are modelled as arbitrary computations over the store
    and a caller-owned world. *)

From stdpp Require Import base list.

(** ** Values and objects *)

(** Address of an object in the store. *)
Definition loc := nat.

(** A run-time value: a [Result] object (by reference) or any other value
    of the host ([P] is the type of those; the code never inspects them). *)
Inductive Val (P : Type) : Type :=
| Prim (p : P)
| Ref (l : loc).
Arguments Prim {P} p.
Arguments Ref {P} l.

(** Which of the two object literals of [src/index.ts] an object is: the
    one returned by [Ok] (lines 97-127) or by [Err] (lines 131-161).  It
    fixes the code of the nine methods. *)
Inductive maker := ByOk | ByErr.

(** An object: its methods (given by the literal and by the constructor
    argument they close over) and its two data properties. *)
Record obj (P : Type) : Type := MkObj {
  made : maker;
  captured : Val P;
  isOk : bool;
  isErr : bool
}.
Arguments MkObj {P} made captured isOk isErr.
Arguments made {P} o.
Arguments captured {P} o.
Arguments isOk {P} o.
Arguments isErr {P} o.

(** The store of objects together with the caller's own state [W]. *)
Record state (P W : Type) : Type := MkState {
  heap : list (obj P);
  world : W
}.
Arguments MkState {P W} heap world.
Arguments heap {P W} s.
Arguments world {P W} s.

(** ** Computations *)

(** What can be thrown: the host's [TypeError] for a method call on a value
    that has no such method, or whatever a callback throws. *)
Inductive exn (P : Type) : Type :=
| TypeError
| Thrown (v : Val P).
Arguments TypeError {P}.
Arguments Thrown {P} v.

Inductive outcome (P W A : Type) : Type :=
| Returns (a : A) (s : state P W)
| Throws (e : exn P) (s : state P W).
Arguments Returns {P W A} a s.
Arguments Throws {P W A} e s.

Definition M (P W A : Type) : Type := state P W -> outcome P W A.

(** A function value passed to a method. *)
Definition callback (P W : Type) : Type := Val P -> M P W (Val P).

Section Monad.
Context {P W : Type}.

Definition ret {A} (a : A) : M P W A := fun s => Returns a s.

Definition bind {A B} (c : M P W A) (k : A -> M P W B) : M P W B :=
  fun s =>
    match c s with
    | Returns a s' => k a s'
    | Throws e s' => Throws e s'
    end.

(** State in which a computation leaves the store and the world,
    whether it returned or threw. *)
Definition final {A} (o : outcome P W A) : state P W :=
  match o with
  | Returns _ s => s
  | Throws _ s => s
  end.

(** Object literal evaluation: a new object at a fresh address. *)
Definition alloc (o : obj P) : M P W (Val P) :=
  fun s => Returns (Ref (length (heap s)))
                   (MkState (heap s ++ [o]) (world s)).

(** The object a value refers to, if it is a [Result] object. *)
Definition deref (s : state P W) (r : Val P) : option (obj P) :=
  match r with
  | Ref l => heap s !! l
  | Prim _ => None
  end.

(** Method lookup on a receiver: a value that is no [Result] object has
    none of the methods, and calling one is a [TypeError]. *)
Definition receiver (r : Val P) : M P W (obj P) :=
  fun s =>
    match deref s r with
    | Some o => Returns o s
    | None => Throws TypeError s
    end.
End Monad.

Declare Scope js_scope.
Delimit Scope js_scope with js.
Notation "x <- c ;; k" := (bind c (fun x => k))
  (at level 100, c at next level, right associativity) : js_scope.
Open Scope js_scope.

(** ** The two constructors *)

Section Constructors.
Context {P W : Type}.

(** [export function Ok<T>(value: T)], lines 96-128. *)
Definition Ok (value : Val P) : M P W (Val P) :=
  alloc (MkObj ByOk value true false).

(** [export function Err<E>(error: E)], lines 130-162. *)
Definition Err (error : Val P) : M P W (Val P) :=
  alloc (MkObj ByErr error false true).
End Constructors.

(** ** The methods of the literal returned by [Ok(value)] *)

Module OkObj.
Section Literal.
Context {P W : Type}.
(** The constructor argument the methods close over, and the receiver. *)
Variables (value this : Val P).

(** [match(ok, _) { return ok(value) }] *)
Definition match_ (ok _err : callback P W) : M P W (Val P) := ok value.

(** [getValueOrDefault(_) { return value as T }] *)
Definition getValueOrDefault (_defaultValue : Val P) : M P W (Val P) :=
  ret value.

(** [getValueOrCompute(_) { return value as T }] *)
Definition getValueOrCompute (_computeFn : callback P W) : M P W (Val P) :=
  ret value.

(** [map(fn) { return Ok(fn(value)) }] *)
Definition map (fn : callback P W) : M P W (Val P) :=
  u <- fn value ;; Ok u.

(** [mapErr(_) { return this }] *)
Definition mapErr (_fn : callback P W) : M P W (Val P) := ret this.

(** [and(result) { return result }] *)
Definition and (result : Val P) : M P W (Val P) := ret result.

(** [andThen(fn) { return fn(value) }] *)
Definition andThen (fn : callback P W) : M P W (Val P) := fn value.

(** [or(_) { return this }] *)
Definition or (_result : Val P) : M P W (Val P) := ret this.

(** [orElse(_) { return this }] *)
Definition orElse (_fn : callback P W) : M P W (Val P) := ret this.
End Literal.
End OkObj.

(** ** The methods of the literal returned by [Err(error)] *)

Module ErrObj.
Section Literal.
Context {P W : Type}.
Variables (error this : Val P).

(** [match(_, err) { return err(error) }] *)
Definition match_ (_ok err : callback P W) : M P W (Val P) := err error.

(** [getValueOrDefault(defaultValue) { return defaultValue }] *)
Definition getValueOrDefault (defaultValue : Val P) : M P W (Val P) :=
  ret defaultValue.

(** [getValueOrCompute(computeFn) { return computeFn(error) }] *)
Definition getValueOrCompute (computeFn : callback P W) : M P W (Val P) :=
  computeFn error.

(** [map(_fn) { return this as any }] *)
Definition map (_fn : callback P W) : M P W (Val P) := ret this.

(** [mapErr(fn) { return Err(fn(error)) }] *)
Definition mapErr (fn : callback P W) : M P W (Val P) :=
  f <- fn error ;; Err f.

(** [and(_) { return this }] *)
Definition and (_result : Val P) : M P W (Val P) := ret this.

(** [andThen(_) { return this }] *)
Definition andThen (_fn : callback P W) : M P W (Val P) := ret this.

(** [or(result) { return result }] *)
Definition or (result : Val P) : M P W (Val P) := ret result.

(** [orElse(fn) { return fn(error) }] *)
Definition orElse (fn : callback P W) : M P W (Val P) := fn error.
End Literal.
End ErrObj.

(** ** Method calls [r.m(args)] *)

(** The method is looked up on the receiver and run with [this] bound to
    the receiver; which body runs is decided by the literal the object was
    made from, never by its [isOk]/[isErr] properties. *)
Module Result.
Section Calls.
Context {P W : Type}.

Definition match_ (r : Val P) (ok err : callback P W) : M P W (Val P) :=
  o <- receiver r ;;
  match made o with
  | ByOk => OkObj.match_ (captured o) ok err
  | ByErr => ErrObj.match_ (captured o) ok err
  end.

Definition getValueOrDefault (r defaultValue : Val P) : M P W (Val P) :=
  o <- receiver r ;;
  match made o with
  | ByOk => OkObj.getValueOrDefault (captured o) defaultValue
  | ByErr => ErrObj.getValueOrDefault defaultValue
  end.

Definition getValueOrCompute (r : Val P) (computeFn : callback P W)
  : M P W (Val P) :=
  o <- receiver r ;;
  match made o with
  | ByOk => OkObj.getValueOrCompute (captured o) computeFn
  | ByErr => ErrObj.getValueOrCompute (captured o) computeFn
  end.

Definition map (r : Val P) (fn : callback P W) : M P W (Val P) :=
  o <- receiver r ;;
  match made o with
  | ByOk => OkObj.map (captured o) fn
  | ByErr => ErrObj.map r fn
  end.

Definition mapErr (r : Val P) (fn : callback P W) : M P W (Val P) :=
  o <- receiver r ;;
  match made o with
  | ByOk => OkObj.mapErr r fn
  | ByErr => ErrObj.mapErr (captured o) fn
  end.

Definition and (r result : Val P) : M P W (Val P) :=
  o <- receiver r ;;
  match made o with
  | ByOk => OkObj.and result
  | ByErr => ErrObj.and r result
  end.

Definition andThen (r : Val P) (fn : callback P W) : M P W (Val P) :=
  o <- receiver r ;;
  match made o with
  | ByOk => OkObj.andThen (captured o) fn
  | ByErr => ErrObj.andThen r fn
  end.

Definition or (r result : Val P) : M P W (Val P) :=
  o <- receiver r ;;
  match made o with
  | ByOk => OkObj.or r result
  | ByErr => ErrObj.or result
  end.

Definition orElse (r : Val P) (fn : callback P W) : M P W (Val P) :=
  o <- receiver r ;;
  match made o with
  | ByOk => OkObj.orElse r fn
  | ByErr => ErrObj.orElse (captured o) fn
  end.

(** Property reads [r.isOk] and [r.isErr] on a [Result] object
    ([None]: [r] is no such object). *)
Definition read_isOk (s : state P W) (r : Val P) : option bool :=
  isOk <$> deref s r.

Definition read_isErr (s : state P W) (r : Val P) : option bool :=
  isErr <$> deref s r.
End Calls.
End Result.

(** ** The calls a holder of a [Result] can make on it *)

Inductive call (P W : Type) : Type :=
| Match (ok err : callback P W)
| GetValueOrDefault (defaultValue : Val P)
| GetValueOrCompute (computeFn : callback P W)
| Map (fn : callback P W)
| MapErr (fn : callback P W)
| And (result : Val P)
| AndThen (fn : callback P W)
| Or (result : Val P)
| OrElse (fn : callback P W).
Arguments Match {P W} ok err.
Arguments GetValueOrDefault {P W} defaultValue.
Arguments GetValueOrCompute {P W} computeFn.
Arguments Map {P W} fn.
Arguments MapErr {P W} fn.
Arguments And {P W} result.
Arguments AndThen {P W} fn.
Arguments Or {P W} result.
Arguments OrElse {P W} fn.

Section Frame.
Context {P W : Type}.

Definition perform (r : Val P) (c : call P W) : M P W (Val P) :=
  match c with
  | Match ok err => Result.match_ r ok err
  | GetValueOrDefault d => Result.getValueOrDefault r d
  | GetValueOrCompute f => Result.getValueOrCompute r f
  | Map f => Result.map r f
  | MapErr f => Result.mapErr r f
  | And x => Result.and r x
  | AndThen f => Result.andThen r f
  | Or x => Result.or r x
  | OrElse f => Result.orElse r f
  end.

(** The caller's functions handed over in a call. *)
Definition callbacks (c : call P W) : list (callback P W) :=
  match c with
  | Match ok err => [ok; err]
  | GetValueOrCompute f | Map f | MapErr f | AndThen f | OrElse f => [f]
  | GetValueOrDefault _ | And _ | Or _ => []
  end.

(** The callback [f] leaves the object [o] at address [l] as it is,
    however it ends. *)
Definition keeps (l : loc) (o : obj P) (f : callback P W) : Prop :=
  forall (x : Val P) (s : state P W),
    heap s !! l = Some o -> heap (final (f x s)) !! l = Some o.
End Frame.

(** ** Watching callbacks being invoked *)

(** A caller whose world is the list of the invocations made so far: the
    function called [name] computes [f] and notes that it ran, and on
    which argument. *)
Definition logged {P : Type} (name : nat) (f : Val P -> Val P)
  : callback P (list (nat * Val P)) :=
  fun x s => Returns (f x) (MkState (heap s) (world s ++ [(name, x)])).

(** ** Objects as the constructors make them *)

(** The object is one that [Ok] or [Err] builds: its two flags are those
    written in the literal its methods come from. *)
Definition constructed {P : Type} (o : obj P) : Prop :=
  o = MkObj ByOk (captured o) true false
  \/ o = MkObj ByErr (captured o) false true.

(** ** Stores and callbacks of particular kinds *)

Section Kinds.
Context {P W : Type}.

(** Every object of the store is as a constructor made it. *)
Definition well_formed (s : state P W) : Prop :=
  Forall constructed (heap s).

(** The value is a [Result] object of the store. *)
Definition is_result (s : state P W) (v : Val P) : Prop :=
  is_Some (deref s v).

(** The callback never throws. *)
Definition returns_always (f : callback P W) : Prop :=
  forall (x : Val P) (s : state P W),
    exists (y : Val P) (s' : state P W), f x s = Returns y s'.

(** The callback leaves a well-formed store well-formed, however it
    ends. *)
Definition keeps_well_formed (f : callback P W) : Prop :=
  forall (x : Val P) (s : state P W),
    well_formed s -> well_formed (final (f x s)).

(** The callback leaves the store as it found it, however it ends. *)
Definition store_neutral (f : callback P W) : Prop :=
  forall (x : Val P) (s : state P W), heap (final (f x s)) = heap s.

(** What the callback returns is a [Result] object. *)
Definition returns_results (f : callback P W) : Prop :=
  forall (x y : Val P) (s s' : state P W),
    f x s = Returns y s' -> is_result s' y.

(** A callback that computes on the caller's world alone: it returns, and
    neither reads nor changes the store. *)
Definition on_world (f : Val P -> W -> Val P * W) : callback P W :=
  fun x s => Returns (fst (f x (world s)))
                     (MkState (heap s) (snd (f x (world s)))).

(** The arguments of a call of [map], [mapErr], [and], [andThen], [or] or
    [orElse] are as their types ask: the [Result] handed to [and] or [or]
    is one, and the function handed to [andThen] or [orElse] returns
    one. *)
Definition chains (s : state P W) (c : call P W) : Prop :=
  match c with
  | Map _ | MapErr _ => True
  | And x | Or x => is_result s x
  | AndThen f | OrElse f => returns_results f
  | Match _ _ | GetValueOrDefault _ | GetValueOrCompute _ => False
  end.
End Kinds.

(** ** Basic facts about computations and the store *)

Section Basics.
Context {P W : Type}.

Lemma bind_ret {A B} (a : A) (k : A -> M P W B) (s : state P W) :
  (x <- ret a ;; k x) s = k a s.
Proof. reflexivity. Qed.

Lemma bind_bind {A B C} (c : M P W A) (k : A -> M P W B)
      (k' : B -> M P W C) (s : state P W) :
  (y <- (x <- c ;; k x) ;; k' y) s = (x <- c ;; y <- k x ;; k' y) s.
Proof. unfold bind. destruct (c s); reflexivity. Qed.

Lemma lookup_fresh (h : list (obj P)) (o : obj P) :
  (h ++ [o]) !! length h = Some o.
Proof. by apply list_lookup_middle. Qed.

Lemma lookup_older (h : list (obj P)) (o o' : obj P) (l : loc) :
  h !! l = Some o -> (h ++ [o']) !! l = Some o.
Proof. intros H. by apply lookup_app_l_Some. Qed.

(** Running a constructor and going on with the new object. *)
Lemma alloc_then {A} (o : obj P) (k : Val P -> M P W A) (s : state P W) :
  (r <- alloc o ;; k r) s
  = k (Ref (length (heap s))) (MkState (heap s ++ [o]) (world s)).
Proof. reflexivity. Qed.

(** A method call on an object of the store finds it. *)
Lemma receiver_found {A} (l : loc) (o : obj P) (k : obj P -> M P W A)
      (s : state P W) :
  heap s !! l = Some o -> (x <- receiver (Ref l) ;; k x) s = k o s.
Proof. intros H. unfold bind, receiver. simpl. by rewrite H. Qed.

Lemma receiver_fresh {A} (h : list (obj P)) (w : W) (o : obj P)
      (k : obj P -> M P W A) :
  (x <- receiver (Ref (length h)) ;; k x) (MkState (h ++ [o]) w)
  = k o (MkState (h ++ [o]) w).
Proof. apply receiver_found. simpl. apply lookup_fresh. Qed.
End Basics.

(** Unfolds a call on a freshly constructed object down to the body of the
    method that runs. *)
Ltac call_on_new :=
  intros;
  unfold Ok, Err, Result.match_, Result.getValueOrDefault,
    Result.getValueOrCompute, Result.map, Result.mapErr, Result.and,
    Result.andThen, Result.or, Result.orElse;
  rewrite ?alloc_then, ?receiver_fresh; simpl.

(** ** [match] *)


(** ** [map] and [mapErr] *)






(** ** [and], [andThen], [or], [orElse] *)

(** The store after two constructor calls still holds the first object
    at its address. *)
Lemma lookup_second_newest {P : Type} (h : list (obj P)) (o o' : obj P) :
  ((h ++ [o]) ++ [o']) !! length h = Some o.
Proof. apply lookup_older, lookup_fresh. Qed.

(** C3. On any [Result] of the store, in any state: on one made by [Ok],
    [and(r)] returns [r] and [andThen(f)] is [f] applied to the payload;
    on one made by [Err], both return the receiver itself and leave the
    state as it is, whatever [f] is ([f] does not run).  For the claim's
    own expressions, from any state: [Ok(v).and(r)] returns [r] with the
    new object in the store, [Ok(v).andThen(f)] is [f(v)] run there,
    [Err(e).and(r)] and [Err(e).andThen(f)] return the new [Err] object.
    With the argument built after the receiver: [Ok(v).and(Ok(r))]
    returns the second object and [Err(e).and(Ok(r))] the first.  Seen
    from a caller that notes every invocation: none is made by
    [Err(e).andThen(f)], one (of [f] on [v]) by [Ok(v).andThen(f)]. *)
Theorem and_andThen_short_circuit :
  forall (P W : Type) (v e r : Val P) (f : callback P W) (s : state P W),
    (forall (l : loc) (o : obj P),
        heap s !! l = Some o ->
        Result.and (Ref l) r s
        = Returns (match made o with ByOk => r | ByErr => Ref l end) s
        /\ Result.andThen (Ref l) f s
           = match made o with
             | ByOk => f (captured o) s
             | ByErr => Returns (Ref l) s
             end)
    /\ (x <- Ok v ;; Result.and x r) s
       = Returns r (MkState (heap s ++ [MkObj ByOk v true false]) (world s))
    /\ (x <- Ok v ;; Result.andThen x f) s
       = f v (MkState (heap s ++ [MkObj ByOk v true false]) (world s))
    /\ (x <- Err e ;; Result.and x r) s
       = Returns (Ref (length (heap s)))
           (MkState (heap s ++ [MkObj ByErr e false true]) (world s))
    /\ (x <- Err e ;; Result.andThen x f) s
       = Returns (Ref (length (heap s)))
           (MkState (heap s ++ [MkObj ByErr e false true]) (world s))
    /\ (x <- Ok v ;; y <- Ok r ;; Result.and x y) s
       = Returns (Ref (length (heap s) + 1))
           (MkState ((heap s ++ [MkObj ByOk v true false])
                       ++ [MkObj ByOk r true false]) (world s))
    /\ (x <- Err e ;; y <- Ok r ;; Result.and x y) s
       = Returns (Ref (length (heap s)))
           (MkState ((heap s ++ [MkObj ByErr e false true])
                       ++ [MkObj ByOk r true false]) (world s))
    /\ forall (f0 : Val P -> Val P) (h : list (obj P)),
        (x <- Err e ;; Result.andThen x (logged 0 f0)) (MkState h [])
        = Returns (Ref (length h))
                  (MkState (h ++ [MkObj ByErr e false true]) [])
        /\ (x <- Ok v ;; Result.andThen x (logged 0 f0)) (MkState h [])
           = Returns (f0 v)
                     (MkState (h ++ [MkObj ByOk v true false]) [(0, v)]).
Proof.
  intros P W v e r f s. split; [|repeat split].
  - intros l o Hl. unfold Result.and, Result.andThen.
    rewrite !(receiver_found l o) by assumption.
    destruct (made o); split; reflexivity.
  - call_on_new. reflexivity.
  - call_on_new. reflexivity.
  - call_on_new. reflexivity.
  - call_on_new. reflexivity.
  - unfold Ok. rewrite !alloc_then. simpl. unfold Result.and.
    rewrite (receiver_found (length (heap s)) (MkObj ByOk v true false))
      by apply lookup_second_newest.
    simpl. unfold OkObj.and, ret. rewrite length_app. reflexivity.
  - unfold Ok, Err. rewrite !alloc_then. simpl. unfold Result.and.
    rewrite (receiver_found (length (heap s)) (MkObj ByErr e false true))
      by apply lookup_second_newest.
    reflexivity.
  - call_on_new. reflexivity.
  - call_on_new. reflexivity.
Qed.

Lemma and_andThen_short_circuit_witness :
  Result.and (W:=unit) (Ref 0) (Ref 1)
    (MkState [MkObj (P:=nat) ByOk (Prim 1) true false;
              MkObj ByOk (Prim 2) true false] tt)
  = Returns (Ref 1)
      (MkState [MkObj ByOk (Prim 1) true false;
                MkObj ByOk (Prim 2) true false] tt)
  /\ Result.andThen (Ref 0) (fun x => Err x)
       (MkState [MkObj (P:=nat) ByOk (Prim 1) true false;
                 MkObj ByOk (Prim 2) true false] tt)
     = Returns (Ref 2)
         (MkState [MkObj ByOk (Prim 1) true false;
                   MkObj ByOk (Prim 2) true false;
                   MkObj ByErr (Prim 1) false true] tt).
Proof.
  apply (proj1 (and_andThen_short_circuit nat unit (Prim 0) (Prim 0)
                  (Ref 1) (fun x => Err x)
                  (MkState [MkObj ByOk (Prim 1) true false;
                            MkObj ByOk (Prim 2) true false] tt))
           0 (MkObj ByOk (Prim 1) true false)).
  reflexivity.
Defined.

(** C4. On any [Result] of the store, in any state: on one made by [Ok],
    [or(r)] and [orElse(f)] return the receiver itself and leave the state
    as it is, whatever [f] is ([f] does not run); on one made by [Err],
    [or(r)] returns [r] and [orElse(f)] is [f] applied to the payload.
    For the claim's own expressions, from any state: [Ok(v).or(r)] and
    [Ok(v).orElse(f)] return the new [Ok] object, [Err(e).or(r)] returns
    [r] with the new object in the store, [Err(e).orElse(f)] is [f(e)] run
    there.  With the argument built after the receiver: [Ok(v).or(Ok(r))]
    returns the first object and [Err(e).or(Ok(r))] the second.  Seen from
    a caller that notes every invocation: none is made by
    [Ok(v).orElse(f)], one (of [f] on [e]) by [Err(e).orElse(f)]. *)
Theorem or_orElse_recovery :
  forall (P W : Type) (v e r : Val P) (f : callback P W) (s : state P W),
    (forall (l : loc) (o : obj P),
        heap s !! l = Some o ->
        Result.or (Ref l) r s
        = Returns (match made o with ByOk => Ref l | ByErr => r end) s
        /\ Result.orElse (Ref l) f s
           = match made o with
             | ByOk => Returns (Ref l) s
             | ByErr => f (captured o) s
             end)
    /\ (x <- Ok v ;; Result.or x r) s
       = Returns (Ref (length (heap s)))
           (MkState (heap s ++ [MkObj ByOk v true false]) (world s))
    /\ (x <- Ok v ;; Result.orElse x f) s
       = Returns (Ref (length (heap s)))
           (MkState (heap s ++ [MkObj ByOk v true false]) (world s))
    /\ (x <- Err e ;; Result.or x r) s
       = Returns r (MkState (heap s ++ [MkObj ByErr e false true]) (world s))
    /\ (x <- Err e ;; Result.orElse x f) s
       = f e (MkState (heap s ++ [MkObj ByErr e false true]) (world s))
    /\ (x <- Ok v ;; y <- Ok r ;; Result.or x y) s
       = Returns (Ref (length (heap s)))
           (MkState ((heap s ++ [MkObj ByOk v true false])
                       ++ [MkObj ByOk r true false]) (world s))
    /\ (x <- Err e ;; y <- Ok r ;; Result.or x y) s
       = Returns (Ref (length (heap s) + 1))
           (MkState ((heap s ++ [MkObj ByErr e false true])
                       ++ [MkObj ByOk r true false]) (world s))
    /\ forall (f0 : Val P -> Val P) (h : list (obj P)),
        (x <- Ok v ;; Result.orElse x (logged 0 f0)) (MkState h [])
        = Returns (Ref (length h))
                  (MkState (h ++ [MkObj ByOk v true false]) [])
        /\ (x <- Err e ;; Result.orElse x (logged 0 f0)) (MkState h [])
           = Returns (f0 e)
                     (MkState (h ++ [MkObj ByErr e false true]) [(0, e)]).
Proof.
  intros P W v e r f s. split; [|repeat split].
  - intros l o Hl. unfold Result.or, Result.orElse.
    rewrite !(receiver_found l o) by assumption.
    destruct (made o); split; reflexivity.
  - call_on_new. reflexivity.
  - call_on_new. reflexivity.
  - call_on_new. reflexivity.
  - call_on_new. reflexivity.
  - unfold Ok. rewrite !alloc_then. simpl. unfold Result.or.
    rewrite (receiver_found (length (heap s)) (MkObj ByOk v true false))
      by apply lookup_second_newest.
    reflexivity.
  - unfold Ok, Err. rewrite !alloc_then. simpl. unfold Result.or.
    rewrite (receiver_found (length (heap s)) (MkObj ByErr e false true))
      by apply lookup_second_newest.
    simpl. unfold ErrObj.or, ret. rewrite length_app. reflexivity.
  - call_on_new. reflexivity.
  - call_on_new. reflexivity.
Qed.

Lemma or_orElse_recovery_witness :
  Result.or (W:=unit) (Ref 0) (Ref 1)
    (MkState [MkObj (P:=nat) ByErr (Prim 1) false true;
              MkObj ByOk (Prim 2) true false] tt)
  = Returns (Ref 1)
      (MkState [MkObj ByErr (Prim 1) false true;
                MkObj ByOk (Prim 2) true false] tt)
  /\ Result.orElse (Ref 0) (fun x => Ok x)
       (MkState [MkObj (P:=nat) ByErr (Prim 1) false true;
                 MkObj ByOk (Prim 2) true false] tt)
     = Returns (Ref 2)
         (MkState [MkObj ByErr (Prim 1) false true;
                   MkObj ByOk (Prim 2) true false;
                   MkObj ByOk (Prim 1) true false] tt).
Proof.
  apply (proj1 (or_orElse_recovery nat unit (Prim 0) (Prim 0)
                  (Ref 1) (fun x => Ok x)
                  (MkState [MkObj ByErr (Prim 1) false true;
                            MkObj ByOk (Prim 2) true false] tt))
           0 (MkObj ByErr (Prim 1) false true)).
  reflexivity.
Defined.

(** What [andThen] does, by cases on its receiver. *)
Lemma andThen_run {P W : Type} (r : Val P) (f : callback P W)
      (s : state P W) :
  Result.andThen r f s
  = match deref s r with
    | Some o =>
        match made o with
        | ByOk => f (captured o) s
        | ByErr => Returns r s
        end
    | None => Throws TypeError s
    end.
Proof.
  unfold Result.andThen, bind, receiver.
  destruct (deref s r) as [o|]; [|reflexivity].
  destruct (made o); reflexivity.
Qed.

(** C5. Chaining is associative: [r.andThen(f).andThen(g)] and
    [r.andThen(x => f(x).andThen(g))] have the same outcome (the same
    object returned, the same store and world left, or the same exception)
    from every state, for every receiver and all callbacks. *)
Theorem andThen_assoc :
  forall (P W : Type) (r : Val P) (f g : callback P W) (s : state P W),
    (y <- Result.andThen r f ;; Result.andThen y g) s
    = Result.andThen r (fun x => y <- f x ;; Result.andThen y g) s.
Proof.
  intros P W r f g s. unfold bind at 1. rewrite !andThen_run.
  destruct (deref s r) as [o|] eqn:Ho; [|reflexivity].
  destruct (made o) eqn:Hm.
  - reflexivity.
  - rewrite andThen_run, Ho, Hm. reflexivity.
Qed.

(** C10. [r.map(f)] has the same outcome as [r.andThen(x => Ok(f(x)))],
    from every state, for every receiver and callback. *)
Theorem map_as_andThen :
  forall (P W : Type) (r : Val P) (f : callback P W) (s : state P W),
    Result.map r f s = Result.andThen r (fun x => u <- f x ;; Ok u) s.
Proof.
  intros P W r f s. unfold Result.map, Result.andThen, bind, receiver.
  destruct (deref s r) as [o|]; [|reflexivity].
  destruct (made o); reflexivity.
Qed.

(** ** [getValueOrDefault] and [getValueOrCompute] *)

(** C6. On any [Result] of the store, in any state,
    [getValueOrDefault(d)] returns the payload of one made by [Ok] and
    [d] on one made by [Err], and leaves the store and the caller's world
    exactly as they were.  For the claim's own expressions, from any
    state: [Ok(v).getValueOrDefault(d)] returns [v] (whatever [d] is) and
    [Err(e).getValueOrDefault(d)] returns [d], the store holding the new
    object and nothing else having changed.  Seen from a caller that notes
    every invocation: none is made, the log is as it was. *)
Theorem getValueOrDefault_spec :
  forall (P W : Type) (v e d : Val P) (s : state P W),
    (forall (l : loc) (o : obj P),
        heap s !! l = Some o ->
        Result.getValueOrDefault (Ref l) d s
        = Returns (match made o with ByOk => captured o | ByErr => d end) s)
    /\ (r <- Ok v ;; Result.getValueOrDefault r d) s
       = Returns v (MkState (heap s ++ [MkObj ByOk v true false]) (world s))
    /\ (r <- Err e ;; Result.getValueOrDefault r d) s
       = Returns d (MkState (heap s ++ [MkObj ByErr e false true]) (world s))
    /\ forall (h : list (obj P)) (log : list (nat * Val P)),
        (r <- Ok v ;; Result.getValueOrDefault r d) (MkState h log)
        = Returns v (MkState (h ++ [MkObj ByOk v true false]) log)
        /\ (r <- Err e ;; Result.getValueOrDefault r d) (MkState h log)
           = Returns d (MkState (h ++ [MkObj ByErr e false true]) log).
Proof.
  intros P W v e d s. split; [|repeat split].
  - intros l o Hl. unfold Result.getValueOrDefault.
    rewrite (receiver_found l o) by assumption.
    destruct (made o); reflexivity.
  - call_on_new. reflexivity.
  - call_on_new. reflexivity.
  - call_on_new. reflexivity.
  - call_on_new. reflexivity.
Qed.

Lemma getValueOrDefault_spec_witness :
  Result.getValueOrDefault (W:=unit) (Ref 0) (Prim 10)
    (MkState [MkObj (P:=nat) ByOk (Prim 5) true false;
              MkObj ByErr (Prim 400) false true] tt)
  = Returns (Prim 5)
      (MkState [MkObj ByOk (Prim 5) true false;
                MkObj ByErr (Prim 400) false true] tt).
Proof.
  apply (proj1 (getValueOrDefault_spec nat unit (Prim 0) (Prim 0) (Prim 10)
                  (MkState [MkObj ByOk (Prim 5) true false;
                            MkObj ByErr (Prim 400) false true] tt))
           0 (MkObj ByOk (Prim 5) true false)).
  reflexivity.
Defined.


(** ** [isOk] and [isErr] *)

(** C8. On the object [Ok(v)] returns, [isOk] reads [true] and [isErr]
    reads [false]; on the one [Err(e)] returns, [isErr] reads [true] and
    [isOk] reads [false]; on both, [isErr] is the negation of [isOk]. *)
Theorem flags_of_constructors :
  forall (P W : Type) (v e : Val P) (s : state P W),
    (exists (r : Val P) (s' : state P W),
        Ok v s = Returns r s'
        /\ Result.read_isOk s' r = Some true
        /\ Result.read_isErr s' r = Some false
        /\ Result.read_isErr s' r = negb <$> Result.read_isOk s' r)
    /\ (exists (r : Val P) (s' : state P W),
           Err e s = Returns r s'
           /\ Result.read_isErr s' r = Some true
           /\ Result.read_isOk s' r = Some false
           /\ Result.read_isErr s' r = negb <$> Result.read_isOk s' r).
Proof.
  intros P W v e s. split; eexists _, _;
    (split; [reflexivity|]);
    unfold Result.read_isOk, Result.read_isErr; simpl;
    rewrite lookup_fresh; done.
Qed.

(** ** No call changes an object *)

(** A callback that keeps an object, followed by a constructor call,
    keeps it: construction only adds an object at a fresh address. *)
Lemma keeps_then_alloc {P W : Type} (l : loc) (o : obj P)
      (f : callback P W) (x : Val P) (mk : Val P -> obj P) (s : state P W) :
  keeps l o f ->
  heap s !! l = Some o ->
  heap (final ((u <- f x ;; alloc (mk u)) s)) !! l = Some o.
Proof.
  intros Hf Hl. specialize (Hf x s Hl). unfold bind.
  destruct (f x s) as [u s1|ex s1]; simpl in *.
  - by apply lookup_older.
  - exact Hf.
Qed.

(** Whatever the receiver, a call leaves every object of the store as it
    was, provided the callbacks it is given do. *)
Lemma perform_frame {P W : Type} (r : Val P) (l : loc) (o : obj P)
      (c : call P W) (s : state P W) :
  heap s !! l = Some o ->
  Forall (keeps l o) (callbacks c) ->
  heap (final (perform r c s)) !! l = Some o.
Proof.
  intros Hl Hc.
  destruct c; simpl in Hc;
    repeat match goal with
           | H : Forall _ (_ :: _) |- _ => apply Forall_cons in H as [? H]
           end;
    simpl;
    unfold Result.match_, Result.getValueOrDefault, Result.getValueOrCompute,
      Result.map, Result.mapErr, Result.and, Result.andThen, Result.or,
      Result.orElse;
    unfold bind at 1; unfold receiver;
    (destruct (deref s r) as [o'|]; [|exact Hl]);
    destruct (made o'); simpl;
    unfold OkObj.match_, ErrObj.match_, ErrObj.getValueOrCompute,
      OkObj.andThen, ErrObj.orElse;
    first [ exact Hl
          | by apply keeps_then_alloc
          | match goal with
            | H : keeps _ _ ?f |- context [?f ?x ?s] => exact (H x s Hl)
            end ].
Qed.

(** C9. A call of any of the nine methods on a [Result] leaves that
    object as it was (same literal, same payload, same flags), given that
    the callbacks handed to the call leave it alone themselves, and whether
    the call returns or a callback throws.  So the flags read the same
    afterwards, and [match] on it invokes the same callback on the same
    payload as before. *)
Theorem calls_do_not_mutate :
  forall (P W : Type) (l : loc) (o : obj P) (c : call P W) (s : state P W),
    heap s !! l = Some o ->
    Forall (keeps l o) (callbacks c) ->
    let s' := final (perform (Ref l) c s) in
    heap s' !! l = Some o
    /\ Result.read_isOk s' (Ref l) = Result.read_isOk s (Ref l)
    /\ Result.read_isErr s' (Ref l) = Result.read_isErr s (Ref l)
    /\ forall ok err : callback P W,
        Result.match_ (Ref l) ok err s
        = (match made o with ByOk => ok | ByErr => err end) (captured o) s
        /\ Result.match_ (Ref l) ok err s'
           = (match made o with ByOk => ok | ByErr => err end)
               (captured o) s'.
Proof.
  intros P W l o c s Hl Hc s'.
  assert (Hl' : heap s' !! l = Some o) by (by apply perform_frame).
  split; [exact Hl'|].
  unfold Result.read_isOk, Result.read_isErr. simpl. rewrite Hl, Hl'.
  repeat split; unfold Result.match_;
    rewrite (receiver_found l o) by assumption;
    destruct (made o); reflexivity.
Qed.

Lemma calls_do_not_mutate_witness :
  heap (final (perform (W:=unit) (Ref 0) (Map ret)
                 (MkState [MkObj (P:=nat) ByOk (Prim 5) true false] tt))) !! 0
  = Some (MkObj ByOk (Prim 5) true false).
Proof.
  apply (calls_do_not_mutate nat unit 0 (MkObj ByOk (Prim 5) true false)
           (Map ret) (MkState [MkObj ByOk (Prim 5) true false] tt)).
  - reflexivity.
  - constructor; [|constructor]. intros x s H. exact H.
Defined.

(** ** Further laws of the methods *)

(** A method call finds its receiver, or is a [TypeError]. *)
Lemma call_found {P W A : Type} (r : Val P) (o : obj P)
      (k : obj P -> M P W A) (s : state P W) :
  deref s r = Some o -> (x <- receiver r ;; k x) s = k o s.
Proof. intros H. unfold bind, receiver. by rewrite H. Qed.

Lemma call_missing {P W A : Type} (r : Val P) (k : obj P -> M P W A)
      (s : state P W) :
  deref s r = None -> (x <- receiver r ;; k x) s = Throws TypeError s.
Proof. intros H. unfold bind, receiver. by rewrite H. Qed.

(** What [orElse] does, by cases on its receiver. *)
Lemma orElse_run {P W : Type} (r : Val P) (f : callback P W)
      (s : state P W) :
  Result.orElse r f s
  = match deref s r with
    | Some o =>
        match made o with
        | ByOk => Returns r s
        | ByErr => f (captured o) s
        end
    | None => Throws TypeError s
    end.
Proof.
  unfold Result.orElse, bind, receiver.
  destruct (deref s r) as [o|]; [|reflexivity].
  destruct (made o); reflexivity.
Qed.

(** X1. Recovery is associative: [r.orElse(f).orElse(g)] and
    [r.orElse(e => f(e).orElse(g))] have the same outcome from every
    state, for every receiver and all callbacks. *)
Theorem orElse_assoc :
  forall (P W : Type) (r : Val P) (f g : callback P W) (s : state P W),
    (y <- Result.orElse r f ;; Result.orElse y g) s
    = Result.orElse r (fun e => y <- f e ;; Result.orElse y g) s.
Proof.
  intros P W r f g s. unfold bind at 1. rewrite !orElse_run.
  destruct (deref s r) as [o|] eqn:Ho; [|reflexivity].
  destruct (made o) eqn:Hm.
  - rewrite orElse_run, Ho, Hm. reflexivity.
  - reflexivity.
Qed.

(** X2. [r.mapErr(f)] has the same outcome as
    [r.orElse(e => Err(f(e)))], from every state, for every receiver and
    callback. *)
Theorem mapErr_as_orElse :
  forall (P W : Type) (r : Val P) (f : callback P W) (s : state P W),
    Result.mapErr r f s = Result.orElse r (fun e => u <- f e ;; Err u) s.
Proof.
  intros P W r f s. rewrite orElse_run.
  unfold Result.mapErr, bind, receiver.
  destruct (deref s r) as [o|]; [|reflexivity].
  destruct (made o); reflexivity.
Qed.

(** X3. [r.and(x)] has the same outcome as [r.andThen(_ => x)], and
    [r.or(x)] the same as [r.orElse(_ => x)]. *)
Theorem and_or_as_constant_chains :
  forall (P W : Type) (r x : Val P) (s : state P W),
    Result.and r x s = Result.andThen r (fun _ => ret x) s
    /\ Result.or r x s = Result.orElse r (fun _ => ret x) s.
Proof.
  intros P W r x s. rewrite andThen_run, orElse_run.
  unfold Result.and, Result.or, bind, receiver.
  destruct (deref s r) as [o|]; [|done].
  destruct (made o); done.
Qed.

(** X4. The two extraction methods are instances of [match]:
    [r.getValueOrCompute(c)] has the same outcome as
    [r.match(v => v, c)], and [r.getValueOrDefault(d)] the same as
    [r.match(v => v, _ => d)] and as [r.getValueOrCompute(_ => d)]. *)
Theorem extraction_as_match :
  forall (P W : Type) (r d : Val P) (c : callback P W) (s : state P W),
    Result.getValueOrCompute r c s = Result.match_ r ret c s
    /\ Result.getValueOrDefault r d s
       = Result.match_ r ret (fun _ => ret d) s
    /\ Result.getValueOrDefault r d s
       = Result.getValueOrCompute r (fun _ => ret d) s.
Proof.
  intros P W r d c s.
  unfold Result.getValueOrCompute, Result.getValueOrDefault, Result.match_,
    bind, receiver.
  destruct (deref s r) as [o|]; [|done].
  destruct (made o); done.
Qed.

(** ** Calls on any [Result] of the store *)

(** Splits the assumption made on the callbacks of a call into one per
    callback. *)
Ltac split_callbacks :=
  repeat match goal with
         | H : Forall _ (_ :: _) |- _ => apply Forall_cons in H as [? H]
         end.

(** Reduces a call on a receiver known to be the object [o] to the body
    of the method that runs. *)
Ltac on_receiver o Ho :=
  unfold perform, Result.match_, Result.getValueOrDefault,
    Result.getValueOrCompute, Result.map, Result.mapErr, Result.and,
    Result.andThen, Result.or, Result.orElse;
  rewrite (call_found _ o _ _ Ho);
  destruct (made o) eqn:?;
  unfold OkObj.match_, OkObj.getValueOrDefault, OkObj.getValueOrCompute,
    OkObj.map, OkObj.mapErr, OkObj.and, OkObj.andThen, OkObj.or,
    OkObj.orElse, ErrObj.match_, ErrObj.getValueOrDefault,
    ErrObj.getValueOrCompute, ErrObj.map, ErrObj.mapErr, ErrObj.and,
    ErrObj.andThen, ErrObj.or, ErrObj.orElse, Ok, Err.

Lemma then_alloc_returns {P W : Type} (f : callback P W) (x : Val P)
      (mk : Val P -> obj P) (s : state P W) :
  returns_always f ->
  exists (y : Val P) (s' : state P W),
    (u <- f x ;; alloc (mk u)) s = Returns y s'.
Proof.
  intros Hf. destruct (Hf x s) as (u & s1 & E).
  unfold bind. rewrite E. by eexists _, _.
Qed.

Lemma then_alloc_throws {P W : Type} (f : callback P W) (x : Val P)
      (mk : Val P -> obj P) (e : exn P) (s s' : state P W) :
  (u <- f x ;; alloc (mk u)) s = Throws e s' -> f x s = Throws e s'.
Proof. unfold bind. destruct (f x s); [discriminate|done]. Qed.

Lemma then_alloc_well_formed {P W : Type} (f : callback P W) (x : Val P)
      (mk : Val P -> obj P) (s : state P W) :
  (forall u, constructed (mk u)) ->
  keeps_well_formed f ->
  well_formed s ->
  well_formed (final ((u <- f x ;; alloc (mk u)) s)).
Proof.
  intros Hmk Hf Hs. specialize (Hf x s Hs). unfold bind.
  destruct (f x s) as [u s1|ex s1]; simpl in *; [|exact Hf].
  unfold well_formed. simpl. apply Forall_app. split; [exact Hf|].
  apply Forall_singleton, Hmk.
Qed.

(** X5. The methods have no failure of their own: a call on a [Result],
    with callbacks that do not throw, returns. *)
Theorem calls_return :
  forall (P W : Type) (r : Val P) (o : obj P) (c : call P W)
         (s : state P W),
    deref s r = Some o ->
    Forall returns_always (callbacks c) ->
    exists (y : Val P) (s' : state P W), perform r c s = Returns y s'.
Proof.
  intros P W r o c s Ho Hc.
  destruct c; simpl in Hc; split_callbacks; on_receiver o Ho;
    first [ by apply then_alloc_returns
          | by eexists _, _
          | match goal with
            | H : returns_always ?f |- context [?f ?x ?s] => exact (H x s)
            end ].
Qed.

Lemma calls_return_witness :
  exists (y : Val nat) (s' : state nat unit),
    perform (Ref 0) (Map ret) (MkState [MkObj ByOk (Prim 5) true false] tt)
    = Returns y s'.
Proof.
  apply (calls_return nat unit (Ref 0) (MkObj ByOk (Prim 5) true false)
           (Map ret) (MkState [MkObj ByOk (Prim 5) true false] tt)).
  - reflexivity.
  - constructor; [|constructor]. intros x s. by exists x, s.
Defined.

(** X6. When a call on a [Result] throws, a callback handed to the call
    threw: applied to the payload in the state the call started from, it
    throws that exception and leaves that state.  In particular [map] and
    [mapErr] construct nothing when their callback throws. *)
Theorem throws_come_from_callbacks :
  forall (P W : Type) (r : Val P) (o : obj P) (c : call P W) (e : exn P)
         (s s' : state P W),
    deref s r = Some o ->
    perform r c s = Throws e s' ->
    exists f : callback P W,
      f ∈ callbacks c /\ f (captured o) s = Throws e s'.
Proof.
  intros P W r o c e s s' Ho.
  destruct c; on_receiver o Ho; intros Hthrow; simpl;
    try discriminate;
    try apply then_alloc_throws in Hthrow;
    eexists; (split; [|exact Hthrow]);
    rewrite ?elem_of_cons; auto.
Qed.

Lemma throws_come_from_callbacks_witness :
  exists f : callback nat unit,
    f ∈ callbacks (Map (fun x s => Throws (Thrown x) s))
    /\ f (Prim 5) (MkState [MkObj ByOk (Prim 5) true false] tt)
       = Throws (Thrown (Prim 5))
                (MkState [MkObj ByOk (Prim 5) true false] tt).
Proof.
  apply (throws_come_from_callbacks nat unit (Ref 0)
           (MkObj ByOk (Prim 5) true false)
           (Map (fun x s => Throws (Thrown x) s))).
  - reflexivity.
  - reflexivity.
Defined.

(** X7. The store stays well-formed: if every object is as a constructor
    made it (its flags are those of the literal its methods come from)
    and the callbacks keep it so, then so it is after any call, on any
    receiver, whether the call returns or throws. *)
Theorem calls_keep_well_formed :
  forall (P W : Type) (r : Val P) (c : call P W) (s : state P W),
    well_formed s ->
    Forall keeps_well_formed (callbacks c) ->
    well_formed (final (perform r c s)).
Proof.
  intros P W r c s Hs Hc.
  destruct (deref s r) as [o|] eqn:Ho.
  - destruct c; simpl in Hc; split_callbacks; on_receiver o Ho;
      first [ exact Hs
            | apply then_alloc_well_formed;
              [intros u; by (left + right)|assumption|assumption]
            | match goal with
              | H : keeps_well_formed ?f |- context [?f ?x ?s] =>
                  exact (H x s Hs)
              end ].
  - destruct c; unfold perform, Result.match_, Result.getValueOrDefault,
      Result.getValueOrCompute, Result.map, Result.mapErr, Result.and,
      Result.andThen, Result.or, Result.orElse;
      rewrite (call_missing _ _ _ Ho); exact Hs.
Qed.

Lemma calls_keep_well_formed_witness :
  well_formed
    (final (perform (W:=unit) (Ref 0) (Map ret)
              (MkState [MkObj (P:=nat) ByErr (Prim 5) false true] tt))).
Proof.
  apply (calls_keep_well_formed nat unit (Ref 0) (Map ret)).
  - apply Forall_singleton. by right.
  - apply Forall_singleton. intros x s H. exact H.
Defined.

(** X8. On an object as a constructor made it, the flags tell what the
    methods do: [match] invokes its first callback when [isOk] is [true]
    and its second when it is [false], [getValueOrDefault] returns the
    payload when [isOk] is [true] and the default otherwise, and [isErr]
    is the negation of [isOk]. *)
Theorem flags_tell_dispatch :
  forall (P W : Type) (l : loc) (o : obj P) (ok err : callback P W)
         (d : Val P) (s : state P W),
    heap s !! l = Some o ->
    constructed o ->
    Result.match_ (Ref l) ok err s
    = (if isOk o then ok else err) (captured o) s
    /\ Result.getValueOrDefault (Ref l) d s
       = Returns (if isOk o then captured o else d) s
    /\ isErr o = negb (isOk o).
Proof.
  intros P W l o ok err d s Hl Hc.
  unfold Result.match_, Result.getValueOrDefault.
  rewrite !(receiver_found l o) by assumption.
  destruct Hc as [E|E]; rewrite E; done.
Qed.

Lemma flags_tell_dispatch_witness :
  Result.match_ (W:=unit) (Ref 0) ret (fun _ => ret (Prim 7))
    (MkState [MkObj (P:=nat) ByErr (Prim 5) false true] tt)
  = Returns (Prim 7) (MkState [MkObj ByErr (Prim 5) false true] tt).
Proof.
  apply (flags_tell_dispatch nat unit 0 (MkObj ByErr (Prim 5) false true)
           ret (fun _ => ret (Prim 7)) (Prim 0)).
  - reflexivity.
  - by right.
Defined.

(** ** Functor laws, up to the identity of objects *)

(** X9. Identity law.  On an object as a constructor made it,
    [r.map(x => x)] and [r.mapErr(x => x)] return a [Result] with the
    literal, payload and flags of [r], and leave the caller's world alone.
    [map] returns [r] itself exactly when [r] was made by [Err] (on an
    [Ok] it builds a second, equal object), and [mapErr] exactly when [r]
    was made by [Ok]. *)
Theorem map_identity_laws :
  forall (P W : Type) (l : loc) (o : obj P) (s : state P W),
    heap s !! l = Some o ->
    constructed o ->
    (exists (r' : Val P) (s' : state P W),
        Result.map (Ref l) ret s = Returns r' s'
        /\ deref s' r' = Some o
        /\ world s' = world s
        /\ (r' = Ref l <-> made o = ByErr))
    /\ (exists (r' : Val P) (s' : state P W),
           Result.mapErr (Ref l) ret s = Returns r' s'
           /\ deref s' r' = Some o
           /\ world s' = world s
           /\ (r' = Ref l <-> made o = ByOk)).
Proof.
  intros P W l o s Hl Hc.
  assert (Hne : Ref (P:=P) (length (heap s)) <> Ref l).
  { intros [= E]. apply lookup_lt_Some in Hl. lia. }
  unfold Result.map, Result.mapErr.
  rewrite !(receiver_found l o) by assumption.
  destruct o as [m v fo fe]. simpl in *.
  destruct Hc as [[= -> -> ->]|[= -> -> ->]]; split; eexists _, _;
    (split; [reflexivity|]); simpl;
    rewrite ?lookup_fresh; repeat split; try done.
Qed.

Lemma map_identity_laws_witness :
  exists (r' : Val nat) (s' : state nat unit),
    Result.map (Ref 0) ret (MkState [MkObj ByOk (Prim 5) true false] tt)
    = Returns r' s'
    /\ deref s' r' = Some (MkObj ByOk (Prim 5) true false)
    /\ world s' = tt
    /\ (r' = Ref 0 <-> ByOk = ByErr).
Proof.
  apply (map_identity_laws nat unit 0 (MkObj ByOk (Prim 5) true false)
           (MkState [MkObj ByOk (Prim 5) true false] tt)).
  - reflexivity.
  - by left.
Defined.

(** X10. Composition law, for callbacks that work on the caller's world
    alone.  [r.map(f).map(g)] and [r.map(x => g(f(x)))] both return; the
    objects they return have the same literal, payload and flags, and the
    caller's world is left the same.  (The stores differ: on an [Ok], the
    first builds an object for [f]'s result as well.)  Likewise for
    [mapErr]. *)
Theorem map_composition :
  forall (P W : Type) (l : loc) (o : obj P)
         (f g : Val P -> W -> Val P * W) (s : state P W),
    heap s !! l = Some o ->
    (exists (r1 r2 : Val P) (s1 s2 : state P W),
        (y <- Result.map (Ref l) (on_world f) ;;
         Result.map y (on_world g)) s = Returns r1 s1
        /\ Result.map (Ref l) (fun x => y <- on_world f x ;; on_world g y) s
           = Returns r2 s2
        /\ is_result s1 r1
        /\ deref s1 r1 = deref s2 r2
        /\ world s1 = world s2)
    /\ (exists (r1 r2 : Val P) (s1 s2 : state P W),
           (y <- Result.mapErr (Ref l) (on_world f) ;;
            Result.mapErr y (on_world g)) s = Returns r1 s1
           /\ Result.mapErr (Ref l)
                (fun x => y <- on_world f x ;; on_world g y) s
              = Returns r2 s2
           /\ is_result s1 r1
           /\ deref s1 r1 = deref s2 r2
           /\ world s1 = world s2).
Proof.
  intros P W l o f g s Hl.
  unfold Result.map, Result.mapErr, bind, receiver, on_world, is_result.
  simpl. rewrite Hl.
  destruct (made o) eqn:Hm; simpl;
    rewrite ?lookup_fresh, ?Hl; simpl; rewrite ?Hm;
    split; eexists _, _, _, _;
    (split; [reflexivity|]); (split; [reflexivity|]);
    simpl; rewrite ?lookup_fresh, ?Hl; done.
Qed.

Lemma map_composition_witness :
  exists (r1 r2 : Val nat) (s1 s2 : state nat nat),
    (y <- Result.map (Ref 0) (on_world (fun x w => (x, S w))) ;;
     Result.map y (on_world (fun x w => (Prim 9, w + w))))
      (MkState [MkObj ByOk (Prim 5) true false] 1) = Returns r1 s1
    /\ Result.map (Ref 0)
         (fun x => y <- on_world (fun x w => (x, S w)) x ;;
                   on_world (fun x w => (Prim 9, w + w)) y)
         (MkState [MkObj ByOk (Prim 5) true false] 1) = Returns r2 s2
    /\ is_result s1 r1
    /\ deref s1 r1 = deref s2 r2
    /\ world s1 = world s2.
Proof.
  apply (map_composition nat nat 0 (MkObj ByOk (Prim 5) true false)).
  reflexivity.
Defined.

(** ** What a call leaves in the store, and what it returns *)

Lemma then_alloc_footprint {P W : Type} (f : callback P W) (x : Val P)
      (mk : Val P -> obj P) (s : state P W) :
  store_neutral f ->
  heap (final ((u <- f x ;; alloc (mk u)) s)) = heap s
  \/ exists u : Val P,
      heap (final ((u <- f x ;; alloc (mk u)) s)) = heap s ++ [mk u].
Proof.
  intros Hf. specialize (Hf x s). unfold bind.
  destruct (f x s) as [u s1|ex s1]; simpl in *.
  - right. exists u. by rewrite Hf.
  - by left.
Qed.

Lemma then_alloc_is_result {P W : Type} (f : callback P W) (x y : Val P)
      (mk : Val P -> obj P) (s s' : state P W) :
  (u <- f x ;; alloc (mk u)) s = Returns y s' -> is_result s' y.
Proof.
  unfold bind. destruct (f x s) as [u s1|ex s1]; [|discriminate].
  unfold alloc. intros [= <- <-]. unfold is_result. simpl.
  rewrite lookup_fresh. by eexists.
Qed.

(** X11. Only [map] and [mapErr] construct, and one object at most.  With
    callbacks that leave the store alone, a call of any method on any
    receiver leaves the store as it was, or (for [map], [mapErr]) with one
    more object at its end, made by [Ok] for [map] and by [Err] for
    [mapErr]. *)
Theorem calls_construct_at_most_once :
  forall (P W : Type) (r : Val P) (c : call P W) (s : state P W),
    Forall store_neutral (callbacks c) ->
    heap (final (perform r c s)) = heap s
    \/ (exists (f : callback P W) (u : Val P),
           c = Map f
           /\ heap (final (perform r c s))
              = heap s ++ [MkObj ByOk u true false])
    \/ (exists (f : callback P W) (u : Val P),
           c = MapErr f
           /\ heap (final (perform r c s))
              = heap s ++ [MkObj ByErr u false true]).
Proof.
  intros P W r c s Hc.
  destruct (deref s r) as [o|] eqn:Ho.
  - destruct c; simpl in Hc; split_callbacks; on_receiver o Ho;
      try (by left);
      try (left;
           match goal with
           | H : store_neutral ?f |- context [?f ?x ?s] => exact (H x s)
           end).
    + destruct (then_alloc_footprint fn (captured o)
                  (fun u => MkObj ByOk u true false) s) as [E|[u E]];
        [assumption|by left|].
      right. left. by exists fn, u.
    + destruct (then_alloc_footprint fn (captured o)
                  (fun u => MkObj ByErr u false true) s) as [E|[u E]];
        [assumption|by left|].
      right. right. by exists fn, u.
  - left. destruct c; unfold perform, Result.match_,
      Result.getValueOrDefault, Result.getValueOrCompute, Result.map,
      Result.mapErr, Result.and, Result.andThen, Result.or, Result.orElse;
      rewrite (call_missing _ _ _ Ho); reflexivity.
Qed.

Lemma calls_construct_at_most_once_witness :
  heap (final (perform (W:=unit) (Ref 0) (OrElse ret)
                 (MkState [MkObj (P:=nat) ByOk (Prim 5) true false] tt)))
  = [MkObj ByOk (Prim 5) true false]
  \/ (exists (f : callback nat unit) (u : Val nat),
         OrElse ret = Map f
         /\ heap (final (perform (W:=unit) (Ref 0) (OrElse ret)
                           (MkState [MkObj ByOk (Prim 5) true false] tt)))
            = [MkObj ByOk (Prim 5) true false]
                ++ [MkObj ByOk u true false])
  \/ (exists (f : callback nat unit) (u : Val nat),
         OrElse ret = MapErr f
         /\ heap (final (perform (W:=unit) (Ref 0) (OrElse ret)
                           (MkState [MkObj ByOk (Prim 5) true false] tt)))
            = [MkObj ByOk (Prim 5) true false]
                ++ [MkObj ByErr u false true]).
Proof.
  apply (calls_construct_at_most_once nat unit (Ref 0) (OrElse ret)
           (MkState [MkObj ByOk (Prim 5) true false] tt)).
  apply Forall_singleton. intros x s. reflexivity.
Defined.

(** X12. Chains can go on: a call of [map], [mapErr], [and], [andThen],
    [or] or [orElse] on a [Result], with arguments as their types ask,
    returns a [Result] object of the store, on which a further method can
    be called. *)
Theorem chaining_returns_results :
  forall (P W : Type) (r y : Val P) (o : obj P) (c : call P W)
         (s s' : state P W),
    deref s r = Some o ->
    chains s c ->
    perform r c s = Returns y s' ->
    is_result s' y.
Proof.
  intros P W r y o c s s' Ho Hc.
  assert (Hr : is_result s r) by (unfold is_result; rewrite Ho; by eexists).
  destruct c; simpl in Hc; try contradiction; on_receiver o Ho;
    intros Hret;
    first [ exact (then_alloc_is_result _ _ _
                     (fun u => MkObj ByOk u true false) _ _ Hret)
          | exact (then_alloc_is_result _ _ _
                     (fun u => MkObj ByErr u false true) _ _ Hret)
          | by eapply Hc
          | unfold ret in Hret; injection Hret as <- <-; assumption ].
Qed.

Lemma chaining_returns_results_witness :
  is_result (W:=unit)
    (MkState [MkObj (P:=nat) ByErr (Prim 5) false true;
              MkObj ByOk (Prim 6) true false] tt)
    (Ref 1).
Proof.
  apply (chaining_returns_results nat unit (Ref 0) (Ref 1)
           (MkObj ByErr (Prim 5) false true)
           (OrElse (fun e => Ok (Prim 6)))
           (MkState [MkObj ByErr (Prim 5) false true] tt)).
  - reflexivity.
  - intros x y s s' [= <- <-]. unfold is_result. simpl.
    rewrite lookup_fresh. by eexists.
  - reflexivity.
Defined.

(** ** The examples of the README and of the test-suite

    Run on numbers as the other values, with an empty store to start from
    and a caller that keeps no state. *)

(** [Ok(5).match(value => value * 2, _ => 0)] is [10]. *)
Example readme_match :
  (r <- Ok (Prim 5) ;;
   Result.match_ r
     (fun x => ret (match x with Prim n => Prim (n * 2) | Ref _ => x end))
     (fun _ => ret (Prim 0)))
    (MkState [] tt)
  = Returns (Prim 10) (MkState [MkObj ByOk (Prim 5) true false] tt).
Proof. reflexivity. Qed.

(** [Ok(5).getValueOrDefault(10)] is [5]. *)
Example readme_getValueOrDefault :
  (r <- Ok (Prim 5) ;; Result.getValueOrDefault r (Prim 10)) (MkState [] tt)
  = Returns (Prim 5) (MkState [MkObj ByOk (Prim 5) true false] tt).
Proof. reflexivity. Qed.

(** [Ok(5).map(f)] is a second object, an [Ok] around [f(5)]. *)
Example readme_map :
  (r <- Ok (Prim 5) ;;
   Result.map r
     (fun x => ret (match x with Prim n => Prim (n + 1) | Ref _ => x end)))
    (MkState [] tt)
  = Returns (Ref 1)
      (MkState [MkObj ByOk (Prim 5) true false;
                MkObj ByOk (Prim 6) true false] tt).
Proof. reflexivity. Qed.

(** Test "mapErr should return itself" on [Ok]:
    [expect(result.mapErr(f)).toBe(result)]. *)
Example test_Ok_mapErr_itself :
  (r <- Ok (Prim 0) ;; r' <- Result.mapErr r (fun x => ret x) ;; ret (r, r'))
    (MkState [] tt)
  = Returns (Ref 0, Ref 0) (MkState [MkObj ByOk (Prim 0) true false] tt).
Proof. reflexivity. Qed.

(** Test "and should return itself" on [Err]:
    [expect(Err(error).and(Ok(0))).toBe(result)]. *)
Example test_Err_and_itself :
  (r <- Err (Prim 7) ;; n <- Ok (Prim 0) ;; r' <- Result.and r n ;;
   ret (r, r'))
    (MkState [] tt)
  = Returns (Ref 0, Ref 0)
      (MkState [MkObj ByErr (Prim 7) false true;
                MkObj ByOk (Prim 0) true false] tt).
Proof. reflexivity. Qed.

(** Calling a method on a value that is no [Result] object. *)
Example call_on_other_value :
  Result.map (Prim 3) (fun x => ret x) (MkState [] tt)
  = Throws TypeError (MkState [] tt).
Proof. reflexivity. Qed.
